(** * Cloning calculator: [calculate_dna_volumes] of app.py

    The calculator turns the lengths and concentrations of a backbone and
    its inserts, an insert:backbone molar ratio and a total molar amount
    into per-fragment molar amounts (pmol), masses (ng) and pipetting
    volumes (uL).

    The function is embedded once, over an interface [Arith] of the number
    operations it uses, and read at two instances:

    - [Exact]: exact rational arithmetic.  The specification states every
      quantity as a real number, and every decimal a form field delivers is
      a rational; equalities between numbers are [Qeq], written [==].
    - [Binary64]: IEEE 754 double precision, what Python and numpy compute
      with, used to evaluate the function on concrete inputs.

    Both keep what the source does at the edges: Python's [float / float]
    raises [ZeroDivisionError] on a zero divisor, numpy's scalar division
    returns an infinity or a NaN instead, and indexing a list out of range
    raises [IndexError].

    Module [Ui] embeds the page around the function: the lists it builds
    from the widgets, the call, and the sections it shows once the button
    is pressed. *)

From stdpp Require Import list strings pretty.
From Stdlib Require Import ZArith QArith Qabs Qfield Lqa Lia.
From Stdlib Require PrimFloat Uint63 SpecFloat FloatOps FloatAxioms.

Local Open Scope Q_scope.

Module App.

(** ** Exceptions and results *)

Inductive exn : Set :=
  | ZeroDivisionError
  | IndexError.

Inductive result (A : Type) : Type :=
  | Ok (a : A)
  | Raise (e : exn).
Arguments Ok {A} a.
Arguments Raise {A} e.

#[global] Instance result_ret : MRet result := fun _ a => Ok a.
#[global] Instance result_bind : MBind result := fun _ _ f m =>
  match m with
  | Ok a => f a
  | Raise e => Raise e
  end.

(** ** Numbers *)

(** The operations of the source on Python numbers [F] ([float], and [int]
    once it meets a [float]) and on numpy scalars [D] (the entries of the
    arrays [np.zeros] makes). *)
Class Arith (F D : Type) := {
  float_of_int : Z -> F;          (* an [int] operand of a float operation *)
  float_add : F -> F -> F;        (* [x + y] *)
  float_mul : F -> F -> F;        (* [x * y] *)
  float_is_zero : F -> bool;      (* the test behind [ZeroDivisionError] *)
  float_div : F -> F -> F;        (* [x / y] for a divisor that is not zero *)
  float_pow10 : Z -> F;           (* [10**k] *)
  np_float64 : F -> D;            (* a Python number stored in an array *)
  np_mul : D -> F -> D;           (* [x * y], numpy scalar by Python number *)
  np_truediv : D -> F -> D;       (* [x / y], numpy scalar by Python number *)
  np_add : D -> D -> D            (* [x + y] on numpy scalars *)
}.

(** Python's [x / y] on two floats. *)
Definition float_truediv `{Arith F D} (x y : F) : result F :=
  if float_is_zero y then Raise ZeroDivisionError else Ok (float_div x y).

(** ** Lists and arrays *)

(** [l[i]] for [i >= 0]. *)
Definition getitem {A} (l : list A) (i : nat) : result A :=
  match l !! i with
  | Some x => Ok x
  | None => Raise IndexError
  end.

(** [a[i] = v] for [i >= 0]. *)
Definition setitem {A} (a : list A) (i : nat) (v : A) : result (list A) :=
  if decide (i < length a)%nat then Ok (<[i:=v]> a) else Raise IndexError.

(** [np.zeros(k)]. *)
Definition np_zeros `{Arith F D} (k : nat) : list D :=
  replicate k (np_float64 (float_of_int 0)).

(** [np.sum(a)]. *)
Definition np_sum `{Arith F D} (a : list D) : D :=
  foldl np_add (np_float64 (float_of_int 0)) a.

(** [for i in range: st = body(i, st)], stopping at the first exception. *)
Fixpoint for_range {St : Type} (body : nat -> St -> result St)
    (range : list nat) (st : St) : result St :=
  match range with
  | [] => Ok st
  | i :: range' => st' ← body i st; for_range body range' st'
  end.

(** ** The calculation *)

(** The three local arrays. *)
Record arrays (D : Type) : Type := Arrays {
  vol : list D;
  weight : list D;
  n : list D
}.
Arguments Arrays {D} vol weight n.
Arguments vol {D} a.
Arguments weight {D} a.
Arguments n {D} a.

(** One pass through the body of the loop, lines 26 to 33. *)
Definition loop_body `{Arith F D} (lengths concentrations : list F)
    (ratio n_backbone : F) (i : nat) (st : arrays D) : result (arrays D) :=
  n' ← setitem (n st) i
         (np_float64
            (if decide (0 < i)%nat then float_mul ratio n_backbone
             else n_backbone));
  ni ← getitem n' i;
  li ← getitem lengths i;
  weight' ← setitem (weight st) i
         (np_mul (np_mul (np_mul (np_mul (np_mul
            ni (float_pow10 (-12))) (float_of_int 660)) (float_pow10 9))
            li) (float_pow10 3));
  wi ← getitem weight' i;
  ci ← getitem concentrations i;
  vol' ← setitem (vol st) i (np_truediv wi ci);
  mret (Arrays vol' weight' n').

Definition calculate_dna_volumes `{Arith F D} (lengths concentrations : list F)
    (ratio n_total : F) : result (list D * list D * list D) :=
  n_backbone ← float_truediv n_total
     (float_add (float_of_int 1)
        (float_mul ratio (float_of_int (Z.of_nat (length lengths) - 1))));
  st ← for_range (loop_body lengths concentrations ratio n_backbone)
       (seq 0 (length lengths))
       (Arrays (np_zeros (length lengths)) (np_zeros (length lengths))
               (np_zeros (length lengths)));
  mret (vol st, weight st, n st).

(** ** Closed forms of the entries *)

(** The divisor of line 18. *)
Definition denominator `{Arith F D} (lengths : list F) (ratio : F) : F :=
  float_add (float_of_int 1)
    (float_mul ratio (float_of_int (Z.of_nat (length lengths) - 1))).

(** [n[i]], line 26. *)
Definition amount_at `{Arith F D} (ratio n_backbone : F) (i : nat) : D :=
  np_float64
    (if decide (0 < i)%nat then float_mul ratio n_backbone else n_backbone).

(** [weight[i]], line 31: the product as Python evaluates it, from the
    left. *)
Definition weight_of `{Arith F D} (ni : D) (li : F) : D :=
  np_mul (np_mul (np_mul (np_mul (np_mul
    ni (float_pow10 (-12))) (float_of_int 660)) (float_pow10 9))
    li) (float_pow10 3).

(** The three arrays the loop leaves behind, entry by entry. *)
Definition amounts_of `{Arith F D} (lengths : list F) (ratio n_backbone : F)
  : list D :=
  imap (fun i _ => amount_at ratio n_backbone i) lengths.

Definition weights_of `{Arith F D} (lengths : list F) (ratio n_backbone : F)
  : list D :=
  imap (fun i l => weight_of (amount_at ratio n_backbone i) l) lengths.

Definition volumes_of `{Arith F D} (lengths concentrations : list F)
    (ratio n_backbone : F) : list D :=
  imap (fun i lc =>
          np_truediv (weight_of (amount_at ratio n_backbone i) (fst lc))
                     (snd lc))
       (zip lengths concentrations).

(** The arrays once the fragments below [k] are done: the invariant of
    the loop. *)
Definition processed `{Arith F D} (lengths concentrations : list F)
    (ratio n_backbone : F) (k : nat) (st : arrays D) : Prop :=
  length (vol st) = length lengths /\
  length (weight st) = length lengths /\
  length (n st) = length lengths /\
  forall i l c, (i < k)%nat ->
    lengths !! i = Some l -> concentrations !! i = Some c ->
    n st !! i = Some (amount_at ratio n_backbone i) /\
    weight st !! i = Some (weight_of (amount_at ratio n_backbone i) l) /\
    vol st !! i =
      Some (np_truediv (weight_of (amount_at ratio n_backbone i) l) c).

End App.

Import App.

(** ** Exact arithmetic *)

Module Exact.

(** A numpy [float64] scalar in exact arithmetic: a rational, or one of
    the values a division by zero leaves behind. *)
Inductive float64 : Set :=
  | Finite (q : Q)
  | Inf (negative : bool)
  | NaN.

Definition Qis_zero (q : Q) : bool := Qeq_bool q 0.
Definition Qis_neg (q : Q) : bool := negb (Qle_bool 0 q).

Definition mul (x : float64) (y : Q) : float64 :=
  match x with
  | Finite q => Finite (q * y)
  | Inf s => if Qis_zero y then NaN else Inf (xorb s (Qis_neg y))
  | NaN => NaN
  end.

(** No exception: a zero divisor gives an infinity, or NaN for [0 / 0]. *)
Definition truediv (x : float64) (y : Q) : float64 :=
  match x with
  | Finite q =>
      if Qis_zero y then (if Qis_zero q then NaN else Inf (Qis_neg q))
      else Finite (q / y)
  | Inf s => Inf (xorb s (Qis_neg y))
  | NaN => NaN
  end.

Definition add (x y : float64) : float64 :=
  match x, y with
  | Finite p, Finite q => Finite (p + q)
  | NaN, _ | _, NaN => NaN
  | Inf s, Inf t => if Bool.eqb s t then Inf s else NaN
  | Inf s, Finite _ => Inf s
  | Finite _, Inf t => Inf t
  end.

#[global] Instance exact_arith : Arith Q float64 := {
  float_of_int := inject_Z;
  float_add := Qplus;
  float_mul := Qmult;
  float_is_zero := Qis_zero;
  float_div := Qdiv;
  float_pow10 := Qpower 10;
  np_float64 := Finite;
  np_mul := mul;
  np_truediv := truediv;
  np_add := add
}.

(** The preconditions of the specification. *)
Definition valid_input (lengths concentrations : list Q)
    (ratio n_total : Q) : Prop :=
  (1 <= length lengths)%nat /\
  length concentrations = length lengths /\
  Forall (fun l => 0 < l) lengths /\
  Forall (fun c => 0 < c) concentrations /\
  0 < ratio /\ 0 < n_total.

(** Entry [i] of the array [a] is the finite number [q]. *)
Definition entry (a : list float64) (i : nat) (q : Q) : Prop :=
  exists p, a !! i = Some (Finite p) /\ p == q.

(** The number of inserts, [N - 1] for [N >= 1] fragments. *)
Definition num_inserts (lengths : list Q) : Q :=
  inject_Z (Z.of_nat (length lengths - 1)).

(** [x] is a decimal rounding of [q]: within half a unit of the last
    digit shown, [digits] of them after the point. *)
Definition rounds_to (q x : Q) (digits : Z) : Prop :=
  Qabs (q - x) <= (1 # 2) * Qpower 10 (- digits).

End Exact.

(** ** Double precision *)

Module Binary64.

Import PrimFloat.

(** An [int] as a double; exact below [2^53], which covers the fragment
    counts and the constants of the source. *)
Definition of_int (z : Z) : float :=
  if (z <? 0)%Z then opp (of_uint63 (Uint63.of_Z (- z)))
  else of_uint63 (Uint63.of_Z z).

(** [10**k]: the integer for [k >= 0]; for [k < 0] the correctly rounded
    quotient [1 / 10**-k], the double nearest to the power (the source
    uses [k = -12], [9] and [3]). *)
Definition pow10 (k : Z) : float :=
  if (k <? 0)%Z then div (of_int 1) (of_int (10 ^ (- k))) else of_int (10 ^ k).

#[global] Instance binary64_arith : Arith float float := {
  float_of_int := of_int;
  float_add := PrimFloat.add;
  float_mul := PrimFloat.mul;
  float_is_zero := fun y => PrimFloat.eqb y (of_int 0);
  float_div := PrimFloat.div;
  float_pow10 := pow10;
  np_float64 := fun x => x;
  np_mul := PrimFloat.mul;
  np_truediv := PrimFloat.div;
  np_add := PrimFloat.add
}.

(** [lo < x < hi]. *)
Definition between (lo x hi : float) : bool := ltb lo x && ltb x hi.

(** The preconditions of the specification, decided on doubles. *)
Definition valid_input (lengths concentrations : list float)
    (ratio n_total : float) : bool :=
  Nat.leb 1 (length lengths) &&
  Nat.eqb (length concentrations) (length lengths) &&
  forallb (ltb (of_int 0)) lengths &&
  forallb (ltb (of_int 0)) concentrations &&
  ltb (of_int 0) ratio && ltb (of_int 0) n_total.

(** A double that is neither an infinity nor a NaN. *)
Definition is_finite (x : float) : bool :=
  match classify x with
  | FloatClass.PInf | FloatClass.NInf | FloatClass.NaN => false
  | _ => true
  end.

End Binary64.

(** ** The page around the calculation *)

Module Ui.

(** The values the input widgets return, lines 44 to 70.  The two
    [number_input]s of insert [i] carry the keys [length_i] and [conc_i]. *)
Record inputs (F : Type) : Type := Inputs {
  num_inserts : Z;
  ratio : F;
  n_total : F;
  bb_length : F;
  bb_concentration : F;
  insert_length : nat -> F;
  insert_concentration : nat -> F;
  button : bool                    (* [st.button("Calculate")] *)
}.
Arguments Inputs {F}.
Arguments num_inserts {F} i.
Arguments ratio {F} i.
Arguments n_total {F} i.
Arguments bb_length {F} i.
Arguments bb_concentration {F} i.
Arguments insert_length {F} i.
Arguments insert_concentration {F} i.
Arguments button {F} i.

(** [f"length_{i}"] and [f"conc_{i}"], the widget keys of lines 67 and 70. *)
Definition length_key (i : nat) : string := "length_" +:+ pretty i.
Definition conc_key (i : nat) : string := "conc_" +:+ pretty i.

(** Lines 57 to 71: the backbone first, then one [append] per insert. *)
Definition collect {F} (w : inputs F) : list F * list F :=
  foldl (fun lists i =>
           (lists.1 ++ [insert_length w i],
            lists.2 ++ [insert_concentration w i]))
        ([bb_length w], [bb_concentration w])
        (seq 0 (Z.to_nat (num_inserts w))).

(** What the page shows after the button; a metric holds the number that
    the script passes through the format [:.2f]. *)
Inductive element (D : Type) : Type :=
  | Subheader (text : string)
  | Metric (label : string) (value : D).
Arguments Subheader {D} text.
Arguments Metric {D} label value.

(** A subheader and the three metrics below it, lines 78 to 82 and 86 to
    90. *)
Definition section {D} (title : string) (ni wi vi : D) : list (element D) :=
  [Subheader title; Metric "Amount (pmol)" ni; Metric "Weight (ng)" wi;
   Metric "Volume (µL)" vi].

(** Lines 77 to 95. *)
Definition show `{Arith F D} (lengths : list F) (vol weight n : list D)
  : result (list (element D)) :=
  n0 ← getitem n 0;
  w0 ← getitem weight 0;
  v0 ← getitem vol 0;
  page ← for_range
    (fun i page =>
       ni ← getitem n i;
       wi ← getitem weight i;
       vi ← getitem vol i;
       mret (page ++ section ("DNA Fragment " +:+ pretty i) ni wi vi))
    (seq 1 (length lengths - 1))
    (section "Backbone" n0 w0 v0);
  mret (page ++ [Subheader "Total Volume";
                 Metric "Total DNA solution volume in reaction (µL)"
                        (np_sum vol)]).

(** Lines 56 to 95: nothing is computed until the button is pressed; an
    exception of the calculation ends the run. *)
Definition run `{Arith F D} (w : inputs F) : result (list (element D)) :=
  let lists := collect w in
  if button w then
    r ← calculate_dna_volumes lists.1 lists.2 (ratio w) (n_total w);
    show lists.1 r.1.1 r.1.2 r.2
  else mret [].

(** ** Closed forms of the page *)

(** The subheader of fragment [i]. *)
Definition title (i : nat) : string :=
  match i with
  | O => "Backbone"
  | _ => "DNA Fragment " +:+ pretty i
  end.

(** One section per fragment, in order, then the total volume. *)
Definition page_of `{Arith F D} (vol weight n : list D) : list (element D) :=
  concat (imap (fun i r => section (title i) r.1 r.2.1 r.2.2)
               (zip n (zip weight vol)))
  ++ [Subheader "Total Volume";
      Metric "Total DNA solution volume in reaction (µL)" (np_sum vol)].

End Ui.


(** A computed value that is a number. *)
Definition is_finite (x : Exact.float64) : Prop :=
  match x with
  | Exact.Finite _ => True
  | _ => False
  end.



(** The default values of the widgets. *)
Definition default_inputs : Ui.inputs Q :=
  Ui.Inputs 1 2.0 0.5 5.0 100.0 (fun _ => 1.0) (fun _ => 150.0) true.


Import Exact.

(** * Properties *)

(** ** The containers *)

Lemma getitem_Some {A} (l : list A) i x : l !! i = Some x -> getitem l i = Ok x.
Proof. unfold getitem. now intros ->. Qed.

Lemma getitem_ge {A} (l : list A) i :
  (length l <= i)%nat -> getitem l i = Raise IndexError.
Proof. intros H. unfold getitem. now rewrite (lookup_ge_None_2 l i H). Qed.

Lemma getitem_insert {A} (a : list A) i v :
  (i < length a)%nat -> getitem (<[i:=v]> a) i = Ok v.
Proof. intros H. apply getitem_Some. now apply list_lookup_insert_eq. Qed.

Lemma setitem_lt {A} (a : list A) i v :
  (i < length a)%nat -> setitem a i v = Ok (<[i:=v]> a).
Proof. intros H. unfold setitem. now rewrite decide_True. Qed.

(** ** The loop, for any arithmetic *)

Section Loop.
Context `{Arith F D}.
Variables (lengths concentrations : list F) (ratio n_backbone : F).

Let body := loop_body lengths concentrations ratio n_backbone.
Let done_upto := processed lengths concentrations ratio n_backbone.

(** Steps of the body that cannot fail while [k] is inside the arrays. *)
Ltac run_body :=
  repeat first
    [ rewrite setitem_lt by lia
    | rewrite getitem_insert by lia
    | match goal with
      | H : ?l !! ?i = Some ?x |- context [getitem ?l ?i] =>
          rewrite (getitem_Some l i x H)
      end
    | progress cbn [mbind mret result_bind result_ret] ].

Lemma length_np_zeros k : length (np_zeros k) = k.
Proof. apply length_replicate. Qed.

Lemma processed_zeros :
  done_upto 0%nat
    (Arrays (np_zeros (length lengths)) (np_zeros (length lengths))
            (np_zeros (length lengths))).
Proof.
  unfold done_upto, processed; simpl. rewrite !length_np_zeros.
  repeat split; trivial; lia.
Qed.

Lemma loop_body_step k st :
  done_upto k st -> (k < length lengths)%nat ->
  (k < length concentrations)%nat ->
  exists st', body k st = Ok st' /\ done_upto (S k) st'.
Proof.
  intros (Hv & Hw & Hn & Hdone) Hk Hc.
  destruct (lookup_lt_is_Some_2 lengths k Hk) as [lk Hlk].
  destruct (lookup_lt_is_Some_2 concentrations k Hc) as [ck Hck].
  eexists. split.
  - unfold body, loop_body. run_body. reflexivity.
  - unfold done_upto, processed; cbn [vol weight n]. rewrite !length_insert.
    do 3 (split; [trivial|]). intros i l c Hi Hli Hci.
    destruct (decide (i = k)) as [->|Hne].
    + rewrite !list_lookup_insert_eq by lia.
      rewrite Hlk in Hli. rewrite Hck in Hci.
      injection Hli as <-. injection Hci as <-. repeat split; reflexivity.
    + rewrite !list_lookup_insert_ne by congruence. apply Hdone; trivial; lia.
Qed.

Lemma for_range_processed m : forall k st,
  done_upto k st -> (k + m <= length lengths)%nat ->
  (k + m <= length concentrations)%nat ->
  exists st', for_range body (seq k m) st = Ok st' /\ done_upto (k + m)%nat st'.
Proof.
  induction m as [|m IH]; intros k st Hst Hl Hc; simpl.
  - exists st. now rewrite Nat.add_0_r.
  - destruct (loop_body_step k st Hst) as (st1 & -> & Hst1); try lia.
    cbn [mbind result_bind].
    destruct (IH (S k) st1 Hst1) as (st' & -> & Hst'); try lia.
    exists st'. split; trivial.
    now replace (k + S m)%nat with (S k + m)%nat by lia.
Qed.

(** With fewer concentrations than lengths the loop stops at the first
    fragment that has none. *)
Lemma for_range_IndexError m : forall k st,
  done_upto k st -> (k + m <= length lengths)%nat ->
  (k <= length concentrations < k + m)%nat ->
  for_range body (seq k m) st = Raise IndexError.
Proof.
  induction m as [|m IH]; intros k st Hst Hl Hc; simpl; [lia|].
  destruct (decide (k < length concentrations)%nat) as [Hlt|Hge].
  - destruct (loop_body_step k st Hst) as (st1 & -> & Hst1); try lia.
    cbn [mbind result_bind]. apply IH; trivial; lia.
  - destruct Hst as (Hv & Hw & Hn & _).
    destruct (lookup_lt_is_Some_2 lengths k ltac:(lia)) as [lk Hlk].
    unfold body, loop_body. run_body.
    rewrite getitem_ge by lia. reflexivity.
Qed.

Lemma processed_all st :
  done_upto (length lengths) st ->
  (length lengths <= length concentrations)%nat ->
  vol st = volumes_of lengths concentrations ratio n_backbone /\
  weight st = weights_of lengths ratio n_backbone /\
  n st = amounts_of lengths ratio n_backbone.
Proof.
  intros (Hv & Hw & Hn & Hdone) Hlen.
  assert (Hzip : length (zip lengths concentrations) = length lengths)
    by (rewrite length_zip_with; lia).
  repeat split; apply list_eq; intros i;
    unfold volumes_of, weights_of, amounts_of; rewrite list_lookup_imap.
  all: destruct (decide (i < length lengths)%nat) as [Hi|Hi].
  all: try (rewrite !lookup_ge_None_2 by lia; reflexivity).
  all: destruct (lookup_lt_is_Some_2 lengths i Hi) as [l Hl].
  all: destruct (lookup_lt_is_Some_2 concentrations i ltac:(lia)) as [c Hc].
  all: destruct (Hdone i l c Hi Hl Hc) as (Ha & Hm & Hx).
  - rewrite Hx. rewrite lookup_zip_with, Hl, Hc. reflexivity.
  - rewrite Hm, Hl. reflexivity.
  - rewrite Ha, Hl. reflexivity.
Qed.

End Loop.

(** What [calculate_dna_volumes] returns or raises, for every input. *)
Theorem calculate_dna_volumes_eq `{Arith F D} (lengths concentrations : list F)
    (ratio n_total : F) :
  calculate_dna_volumes lengths concentrations ratio n_total =
  if float_is_zero (denominator lengths ratio) then Raise ZeroDivisionError
  else if decide (length concentrations < length lengths)%nat
  then Raise IndexError
  else
    let nb := float_div n_total (denominator lengths ratio) in
    Ok (volumes_of lengths concentrations ratio nb,
        weights_of lengths ratio nb,
        amounts_of lengths ratio nb).
Proof.
  unfold calculate_dna_volumes, float_truediv. fold (denominator lengths ratio).
  destruct (float_is_zero (denominator lengths ratio)); [reflexivity|].
  cbn [mbind result_bind].
  set (nb := float_div n_total (denominator lengths ratio)).
  pose proof (processed_zeros lengths concentrations ratio nb) as H0.
  destruct (decide (length concentrations < length lengths)%nat) as [Hlt|Hge].
  - rewrite (for_range_IndexError _ _ _ _ _ _ _ H0); [reflexivity|lia|lia].
  - destruct (for_range_processed lengths concentrations ratio nb
                (length lengths) 0%nat _ H0) as (st & -> & Hst); try lia.
    cbn [mbind mret result_bind result_ret].
    destruct (processed_all _ _ _ _ _ Hst) as (-> & -> & ->); [lia|].
    reflexivity.
Qed.

(** ** Exact arithmetic of the entries *)

Lemma Qis_zero_false q : ~ q == 0 -> Qis_zero q = false.
Proof.
  intros H. unfold Qis_zero. destruct (Qeq_bool q 0) eqn:E; trivial.
  now apply Qeq_bool_eq in E.
Qed.

Lemma Qis_zero_true q : q == 0 -> Qis_zero q = true.
Proof. intros H. now apply Qeq_eq_bool. Qed.

(** The three conversion factors of line 31 cancel. *)
Lemma conversion_factors :
  float_pow10 (-12) * float_pow10 9 * float_pow10 3 == 1.
Proof. vm_compute. reflexivity. Qed.


Lemma weight_value a l :
  a * float_pow10 (-12) * 660 * float_pow10 9 * l * float_pow10 3
  == a * 660 * l.
Proof.
  transitivity
    (a * 660 * l * (float_pow10 (-12) * float_pow10 9 * float_pow10 3));
    [ring|].
  rewrite conversion_factors. ring.
Qed.

Lemma truediv_Finite m c : ~ c == 0 -> truediv (Finite m) c = Finite (m / c).
Proof. intros H. simpl. now rewrite Qis_zero_false. Qed.

(** [N - 1] as Python computes it is the number of inserts from one
    fragment on. *)
Lemma denominator_inserts (lengths : list Q) ratio :
  (1 <= length lengths)%nat ->
  denominator lengths ratio = 1 + ratio * num_inserts lengths.
Proof.
  intros H. unfold denominator, num_inserts. cbn.
  replace (Z.of_nat (length lengths) - 1)%Z
    with (Z.of_nat (length lengths - 1)) by lia.
  reflexivity.
Qed.

Lemma num_inserts_nonneg lengths : 0 <= num_inserts lengths.
Proof.
  unfold num_inserts. change 0 with (inject_Z 0). rewrite <- Zle_Qle. lia.
Qed.

Lemma denominator_pos (lengths : list Q) ratio :
  (1 <= length lengths)%nat -> 0 < ratio -> 0 < denominator lengths ratio.
Proof.
  intros HN Hr. rewrite denominator_inserts by trivial.
  pose proof (num_inserts_nonneg lengths). nra.
Qed.


(** ** Entries of the closed forms *)

Lemma lookup_amounts_of (lengths : list Q) ratio nb i :
  (i < length lengths)%nat ->
  amounts_of lengths ratio nb !! i =
  Some (Finite (if decide (0 < i)%nat then ratio * nb else nb)).
Proof.
  intros Hi. unfold amounts_of. rewrite list_lookup_imap.
  destruct (lookup_lt_is_Some_2 lengths i Hi) as [l ->]. reflexivity.
Qed.

Lemma lookup_weights_of (lengths : list Q) ratio nb i l :
  lengths !! i = Some l ->
  weights_of lengths ratio nb !! i =
  Some (Finite ((if decide (0 < i)%nat then ratio * nb else nb)
                * float_pow10 (-12) * 660 * float_pow10 9 * l
                * float_pow10 3)).
Proof. intros Hl. unfold weights_of. now rewrite list_lookup_imap, Hl. Qed.

Lemma lookup_volumes_of (lengths concentrations : list Q) ratio nb i l c :
  lengths !! i = Some l -> concentrations !! i = Some c ->
  volumes_of lengths concentrations ratio nb !! i =
  Some (truediv
          (Finite ((if decide (0 < i)%nat then ratio * nb else nb)
                   * float_pow10 (-12) * 660 * float_pow10 9 * l
                   * float_pow10 3)) c).
Proof.
  intros Hl Hc. unfold volumes_of.
  now rewrite list_lookup_imap, lookup_zip_with, Hl, Hc.
Qed.

(** The call returns as soon as there is a fragment, a concentration for
    every fragment, and a positive ratio. *)
Lemma calculate_dna_volumes_returns (lengths concentrations : list Q)
    ratio n_total :
  (1 <= length lengths)%nat ->
  (length lengths <= length concentrations)%nat -> 0 < ratio ->
  calculate_dna_volumes lengths concentrations ratio n_total =
  Ok (volumes_of lengths concentrations ratio
        (n_total / denominator lengths ratio),
      weights_of lengths ratio (n_total / denominator lengths ratio),
      amounts_of lengths ratio (n_total / denominator lengths ratio)).
Proof.
  intros HN Hlen Hr. rewrite calculate_dna_volumes_eq.
  pose proof (denominator_pos lengths ratio HN Hr) as Hd.
  change (float_is_zero (denominator lengths ratio))
    with (Qis_zero (denominator lengths ratio)).
  rewrite Qis_zero_false by lra. rewrite decide_False by lia. reflexivity.
Qed.

Lemma valid_input_returns lengths concentrations ratio n_total :
  valid_input lengths concentrations ratio n_total ->
  calculate_dna_volumes lengths concentrations ratio n_total =
  Ok (volumes_of lengths concentrations ratio
        (n_total / denominator lengths ratio),
      weights_of lengths ratio (n_total / denominator lengths ratio),
      amounts_of lengths ratio (n_total / denominator lengths ratio)).
Proof.
  intros (HN & Hlen & _ & _ & Hr & _).
  apply calculate_dna_volumes_returns; trivial; lia.
Qed.

Lemma valid_input_lookup lengths concentrations ratio n_total i :
  valid_input lengths concentrations ratio n_total ->
  (i < length lengths)%nat ->
  exists l c, lengths !! i = Some l /\ concentrations !! i = Some c /\
              0 < l /\ 0 < c.
Proof.
  intros (HN & Hlen & Hl & Hc & _) Hi.
  destruct (lookup_lt_is_Some_2 lengths i Hi) as [l Hli].
  destruct (lookup_lt_is_Some_2 concentrations i ltac:(lia)) as [c Hci].
  exists l, c. repeat split; trivial.
  - exact (Forall_lookup_1 _ _ _ _ Hl Hli).
  - exact (Forall_lookup_1 _ _ _ _ Hc Hci).
Qed.

(** * The claims of the specification *)

(** ** Molar amounts *)

(** C1. With [N >= 1] fragments, a positive ratio and a positive total
    amount the call returns, the backbone amount is
    [total_amount / (1 + ratio * (N - 1))], and every insert receives
    [ratio] times the backbone amount: one and the same amount for all
    inserts. *)
Theorem amounts_partition lengths concentrations ratio n_total :
  (1 <= length lengths)%nat -> length concentrations = length lengths ->
  0 < ratio -> 0 < n_total ->
  exists volumes masses amounts a0,
    calculate_dna_volumes lengths concentrations ratio n_total =
      Ok (volumes, masses, amounts) /\
    length amounts = length lengths /\
    amounts !! 0%nat = Some (Finite a0) /\
    a0 == n_total / (1 + ratio * num_inserts lengths) /\
    (forall i, (0 < i < length lengths)%nat ->
       entry amounts i (ratio * a0)) /\
    (forall i j, (0 < i < length lengths)%nat ->
       (0 < j < length lengths)%nat -> amounts !! i = amounts !! j).
Proof.
  intros HN Hlen Hr Ht.
  do 3 eexists. exists (n_total / denominator lengths ratio).
  split; [apply calculate_dna_volumes_returns; trivial; lia|].
  split; [apply length_imap|].
  split; [now rewrite lookup_amounts_of by lia|].
  split; [now rewrite denominator_inserts|].
  split.
  - intros i Hi. eexists. rewrite lookup_amounts_of by lia.
    rewrite decide_True by lia. split; reflexivity.
  - intros i j Hi Hj. rewrite !lookup_amounts_of by lia.
    now rewrite !decide_True by lia.
Qed.

Lemma amounts_partition_witness :
  exists volumes masses amounts a0,
    calculate_dna_volumes [5; 1; 2] [100; 150; 80] 2 (1 # 2) =
      Ok (volumes, masses, amounts) /\
    length amounts = 3%nat /\
    amounts !! 0%nat = Some (Finite a0) /\
    a0 == (1 # 2) / (1 + 2 * num_inserts [5; 1; 2]) /\
    (forall i, (0 < i < 3)%nat -> entry amounts i (2 * a0)) /\
    (forall i j, (0 < i < 3)%nat -> (0 < j < 3)%nat ->
       amounts !! i = amounts !! j).
Proof.
  apply (amounts_partition [5; 1; 2] [100; 150; 80] 2 (1 # 2));
    [simpl; lia | reflexivity | reflexivity | reflexivity].
Defined.

(** ** Masses *)

(** C2, as amended: over exact arithmetic.  For valid inputs the mass of
    every fragment is [amount * 660 * length]: the factors [10**-12],
    [10**9] and [10**3] that line 31 multiplies in have product 1.  In
    double precision the product rounds after each factor (module
    [Rounding]). *)
Theorem mass_closed_form lengths concentrations ratio n_total :
  valid_input lengths concentrations ratio n_total ->
  float_pow10 (-12) * float_pow10 9 * float_pow10 3 == 1 /\
  exists volumes masses amounts,
    calculate_dna_volumes lengths concentrations ratio n_total =
      Ok (volumes, masses, amounts) /\
    forall i l, lengths !! i = Some l ->
      exists ai mi,
        amounts !! i = Some (Finite ai) /\
        masses !! i = Some (Finite mi) /\
        mi == ai * 660 * l.
Proof.
  intros Hvalid. split; [exact conversion_factors|].
  do 3 eexists. split; [now apply valid_input_returns|].
  intros i l Hl. pose proof (lookup_lt_Some _ _ _ Hl) as Hi.
  do 2 eexists.
  rewrite lookup_amounts_of by trivial.
  rewrite (lookup_weights_of _ _ _ _ _ Hl).
  split; [reflexivity|]. split; [reflexivity|]. apply weight_value.
Qed.

Lemma valid_example : valid_input [5; 1] [100; 150] 2 (1 # 2).
Proof.
  unfold valid_input. simpl.
  repeat split; try lia; repeat constructor.
Qed.

Lemma mass_closed_form_witness :
  float_pow10 (-12) * float_pow10 9 * float_pow10 3 == 1 /\
  exists volumes masses amounts,
    calculate_dna_volumes [5; 1] [100; 150] 2 (1 # 2) =
      Ok (volumes, masses, amounts) /\
    forall i l, [5; 1] !! i = Some l ->
      exists ai mi,
        amounts !! i = Some (Finite ai) /\
        masses !! i = Some (Finite mi) /\
        mi == ai * 660 * l.
Proof. exact (mass_closed_form [5; 1] [100; 150] 2 (1 # 2) valid_example). Defined.

(** ** Volumes *)

(** C3. For valid inputs the volume of every fragment is its returned mass
    divided by its concentration. *)
Theorem volume_is_mass_by_concentration lengths concentrations ratio n_total :
  valid_input lengths concentrations ratio n_total ->
  exists volumes masses amounts,
    calculate_dna_volumes lengths concentrations ratio n_total =
      Ok (volumes, masses, amounts) /\
    length volumes = length lengths /\
    forall i c, concentrations !! i = Some c ->
      exists mi vi,
        masses !! i = Some (Finite mi) /\
        volumes !! i = Some (Finite vi) /\
        vi == mi / c.
Proof.
  intros Hvalid. do 3 eexists. split; [now apply valid_input_returns|].
  destruct Hvalid as (HN & Hlen & _ & Hpos & _).
  split. { unfold volumes_of. rewrite length_imap, length_zip_with. lia. }
  intros i c Hc. pose proof (lookup_lt_Some _ _ _ Hc) as Hi.
  destruct (lookup_lt_is_Some_2 lengths i ltac:(lia)) as [l Hl].
  pose proof (Forall_lookup_1 _ _ _ _ Hpos Hc) as Hc0. simpl in Hc0.
  do 2 eexists.
  rewrite (lookup_weights_of _ _ _ _ _ Hl).
  rewrite (lookup_volumes_of _ _ _ _ _ _ _ Hl Hc).
  rewrite truediv_Finite by lra.
  repeat split; reflexivity.
Qed.

Lemma volume_is_mass_by_concentration_witness :
  exists volumes masses amounts,
    calculate_dna_volumes [5; 1] [100; 150] 2 (1 # 2) =
      Ok (volumes, masses, amounts) /\
    length volumes = 2%nat /\
    forall i c, [100; 150] !! i = Some c ->
      exists mi vi,
        masses !! i = Some (Finite mi) /\
        volumes !! i = Some (Finite vi) /\
        vi == mi / c.
Proof.
  exact (volume_is_mass_by_concentration [5; 1] [100; 150] 2 (1 # 2)
           valid_example).
Defined.

(** ** The amounts add up *)

Lemma amounts_of_cons l lengths ratio nb :
  amounts_of (l :: lengths) ratio nb =
  Finite nb :: replicate (length lengths) (Finite (ratio * nb)).
Proof.
  apply list_eq. intros [|i].
  - reflexivity.
  - destruct (decide (i < length lengths)%nat) as [Hi|Hi].
    + rewrite lookup_amounts_of by (simpl; lia). simpl.
      now rewrite lookup_replicate_2.
    + simpl. rewrite (proj1 (lookup_replicate_None _ _ _)) by lia.
      apply lookup_ge_None_2. unfold amounts_of.
      rewrite length_imap. simpl. lia.
Qed.

Lemma sum_replicate x k : forall acc,
  exists s, foldl add (Finite acc) (replicate k (Finite x)) = Finite s /\
            s == acc + inject_Z (Z.of_nat k) * x.
Proof.
  induction k as [|k IH]; intros acc.
  - exists acc. split; [reflexivity|]. simpl. ring.
  - destruct (IH (acc + x)) as (s & Hs & Hv). exists s. split; [exact Hs|].
    rewrite Hv, Nat2Z.inj_succ. unfold Z.succ. rewrite inject_Z_plus. ring.
Qed.

(** C4. For valid inputs the returned molar amounts add up to
    [total_amount]: the backbone amount plus [N - 1] times [ratio] times the
    backbone amount. *)
Theorem amounts_sum_to_total lengths concentrations ratio n_total :
  valid_input lengths concentrations ratio n_total ->
  exists volumes masses amounts a0 s,
    calculate_dna_volumes lengths concentrations ratio n_total =
      Ok (volumes, masses, amounts) /\
    amounts !! 0%nat = Some (Finite a0) /\
    a0 + num_inserts lengths * (ratio * a0) == n_total /\
    np_sum amounts = Finite s /\
    s == n_total.
Proof.
  intros Hvalid. pose proof (valid_input_returns _ _ _ _ Hvalid) as Hret.
  destruct Hvalid as (HN & Hlen & _ & _ & Hr & Ht).
  pose proof (denominator_pos lengths ratio HN Hr) as Hd.
  rewrite denominator_inserts in Hd, Hret by trivial.
  set (nb := n_total / (1 + ratio * num_inserts lengths)) in *.
  assert (Hsum : nb + num_inserts lengths * (ratio * nb) == n_total).
  { unfold nb. field. lra. }
  destruct lengths as [|l0 lengths']; [simpl in HN; lia|].
  rewrite amounts_of_cons in Hret.
  destruct (sum_replicate (ratio * nb) (length lengths') (0 + nb))
    as (s & Hs & Hv).
  do 3 eexists. exists nb, s. split; [exact Hret|].
  split; [reflexivity|]. split; [exact Hsum|]. split; [exact Hs|].
  transitivity (nb + num_inserts (l0 :: lengths') * (ratio * nb));
    [|exact Hsum].
  assert (Hk : num_inserts (l0 :: lengths') =
               inject_Z (Z.of_nat (length lengths'))).
  { unfold num_inserts. do 2 f_equal. simpl. lia. }
  rewrite Hv, Hk. ring.
Qed.

Lemma amounts_sum_to_total_witness :
  exists volumes masses amounts a0 s,
    calculate_dna_volumes [5; 1] [100; 150] 2 (1 # 2) =
      Ok (volumes, masses, amounts) /\
    amounts !! 0%nat = Some (Finite a0) /\
    a0 + num_inserts [5; 1] * (2 * a0) == 1 # 2 /\
    np_sum amounts = Finite s /\
    s == 1 # 2.
Proof.
  exact (amounts_sum_to_total [5; 1] [100; 150] 2 (1 # 2) valid_example).
Defined.

(** ** Backbone only *)



(** ** Scaling a concentration *)




(** ** No division by zero under the preconditions *)



(** ** Inputs outside the preconditions *)

(** C10. With no fragment at all the call signals no invalid input: the
    divisor of line 18 is [1 + ratio * (0 - 1)], so a ratio of 1 raises
    [ZeroDivisionError], and any other ratio returns three empty arrays. *)
Theorem empty_input (ratio n_total : Q) :
  denominator [] ratio == 1 + ratio * (0 - 1) /\
  calculate_dna_volumes [] [] ratio n_total =
  if Qeq_bool ratio 1 then Raise ZeroDivisionError else Ok ([], [], []).
Proof.
  assert (Hd : denominator [] ratio == 1 + ratio * (0 - 1)) by reflexivity.
  split; [exact Hd|].
  rewrite calculate_dna_volumes_eq.
  change (float_is_zero (denominator [] ratio))
    with (Qis_zero (denominator [] ratio)).
  destruct (Qeq_bool ratio 1) eqn:E.
  - apply Qeq_bool_eq in E. rewrite Qis_zero_true; [reflexivity|].
    rewrite Hd, E. reflexivity.
  - apply Qeq_bool_neq in E. rewrite Qis_zero_false; [reflexivity|].
    rewrite Hd. intros H0. apply E. lra.
Qed.

(** A negative length is not rejected: the call returns a negative mass and
    a negative volume.  This refutes C8 as the specification states it
    (invalid input fails with an [InvalidInput] error). *)
Lemma negative_length_not_rejected :
  ~ valid_input [-5] [100] 2 (1 # 2) /\
  exists v m a,
    calculate_dna_volumes [-5] [100] 2 (1 # 2) =
      Ok ([Finite v], [Finite m], [Finite a]) /\
    a == 1 # 2 /\ m == -1650 /\ v == -(33 # 2).
Proof.
  split.
  - intros (_ & _ & Hl & _). apply Forall_inv in Hl. discriminate Hl.
  - do 3 eexists. split; [vm_compute; reflexivity|].
    repeat split; reflexivity.
Qed.

(** ** The worked example *)

Module Scenario.

Import PrimFloat.
#[local] Set Warnings "-inexact-float".

(** C7. For lengths [5.0, 1.0], concentrations [100.0, 150.0], ratio 2.0
    and total amount 0.5: the backbone amount is [0.5 / (1 + 2 * 1)], which
    is 0.16667 to five places, the insert amount is 0.33333, the backbone
    mass 550 ng and volume 5.50 uL, the insert mass 220 ng and volume 1.467
    uL, and the volumes add up to 6.97 uL.  The second half states the same
    run in double precision: the doubles returned, and that they round to
    the same decimals. *)
Theorem worked_example :
  (exists a0 a1 m0 m1 v0 v1 total,
     calculate_dna_volumes [5; 1] [100; 150] 2 (1 # 2) =
       Ok ([Finite v0; Finite v1], [Finite m0; Finite m1],
           [Finite a0; Finite a1]) /\
     a0 == (1 # 2) / (1 + 2 * 1) /\
     rounds_to a0 0.16667 5 /\
     rounds_to a1 0.33333 5 /\
     m0 == 550 /\
     v0 == 5.50 /\
     m1 == 220 /\
     rounds_to v1 1.467 3 /\
     np_sum [Finite v0; Finite v1] = Finite total /\
     rounds_to total 6.97 2) /\
  (calculate_dna_volumes [5; 1]%float [100; 150]%float 2%float 0.5%float =
     Ok ([5.4999999999999991; 1.4666666666666666]%float,
         [549.99999999999989; 219.99999999999997]%float,
         [0.16666666666666666; 0.33333333333333331]%float) /\
   Binary64.between 0.166665 0.16666666666666666 0.166675 = true /\
   Binary64.between 0.333325 0.33333333333333331 0.333335 = true /\
   Binary64.between 549.95 549.99999999999989 550.05 = true /\
   Binary64.between 5.495 5.4999999999999991 5.505 = true /\
   Binary64.between 219.95 219.99999999999997 220.05 = true /\
   Binary64.between 1.4665 1.4666666666666666 1.4675 = true /\
   Binary64.between 6.965
     (np_sum [5.4999999999999991; 1.4666666666666666]%float) 6.975 = true).
Proof.
  split.
  - do 7 eexists. split; [vm_compute; reflexivity|].
    unfold rounds_to.
    repeat split; try reflexivity;
      apply Qle_bool_imp_le; vm_compute; reflexivity.
  - repeat split; vm_compute; reflexivity.
Qed.

(** In double precision line 31 rounds after each of its six factors, so
    the mass it returns need not be the double nearest to
    [amount * 660 * length]: here it is one unit in the last place below
    550. *)
Example binary64_mass_rounding :
  weight_of 0.16666666666666666%float 5%float = 549.99999999999989%float /\
  (0.16666666666666666 * 660 * 5 = 550)%float.
Proof. split; vm_compute; reflexivity. Qed.

(** In double precision a zero concentration comes back as an infinity,
    and as NaN when the mass is zero as well; no exception is raised. *)
Example binary64_zero_concentration :
  calculate_dna_volumes [5; 1]%float [100; 0]%float 2%float 0.5%float =
    Ok ([5.4999999999999991; infinity]%float,
        [549.99999999999989; 219.99999999999997]%float,
        [0.16666666666666666; 0.33333333333333331]%float) /\
  calculate_dna_volumes [5]%float [0]%float 2%float 0%float =
    Ok ([nan], [0%float], [0%float]).
Proof. split; vm_compute; reflexivity. Qed.

(** In double precision too an empty input with ratio 1 divides by zero. *)
Example binary64_empty_input :
  calculate_dna_volumes (F:=float) [] [] 1%float 0.5%float =
    Raise ZeroDivisionError /\
  calculate_dna_volumes (F:=float) [] [] 2%float 0.5%float =
    Ok ([], [], []).
Proof. split; vm_compute; reflexivity. Qed.

End Scenario.

(** * Further properties of [calculate_dna_volumes] *)

(** ** What the result depends on *)

Lemma denominator_insert `{Arith F D} (lengths : list F) ratio i x :
  denominator (<[i:=x]> lengths) ratio = denominator lengths ratio.
Proof. unfold denominator. now rewrite length_insert. Qed.

Lemma amounts_of_length `{Arith F D} (lengths lengths' : list F) ratio nb :
  length lengths' = length lengths ->
  amounts_of lengths' ratio nb = amounts_of lengths ratio nb.
Proof.
  intros Hlen. apply list_eq. intros i. unfold amounts_of.
  rewrite !list_lookup_imap.
  destruct (decide (i < length lengths)%nat) as [Hi|Hi].
  - destruct (lookup_lt_is_Some_2 lengths i Hi) as [l ->].
    destruct (lookup_lt_is_Some_2 lengths' i ltac:(lia)) as [l' ->].
    reflexivity.
  - now rewrite !lookup_ge_None_2 by lia.
Qed.

Lemma valid_input_insert_length lengths concentrations ratio n_total i l :
  valid_input lengths concentrations ratio n_total -> 0 < l ->
  valid_input (<[i:=l]> lengths) concentrations ratio n_total.
Proof.
  intros (HN & Hlen & Hl & Hc & Hr & Ht) Hpos. unfold valid_input.
  rewrite length_insert. repeat split; trivial.
  now apply Forall_insert.
Qed.

(** X1. In exact arithmetic: for valid inputs, multiplying the length of
    fragment [i] by a
    positive factor [k] multiplies the mass and the volume of fragment [i]
    by [k]; the amounts, and the masses and volumes of the other fragments,
    stay as they were. *)
Theorem scaling_length_scales_mass lengths concentrations ratio n_total i l k :
  valid_input lengths concentrations ratio n_total ->
  lengths !! i = Some l -> 0 < k ->
  exists volumes masses amounts volumes' masses' m m' v v',
    calculate_dna_volumes lengths concentrations ratio n_total =
      Ok (volumes, masses, amounts) /\
    calculate_dna_volumes (<[i:=k * l]> lengths) concentrations ratio n_total =
      Ok (volumes', masses', amounts) /\
    masses !! i = Some (Finite m) /\ masses' !! i = Some (Finite m') /\
    m' == k * m /\
    volumes !! i = Some (Finite v) /\ volumes' !! i = Some (Finite v') /\
    v' == k * v /\
    forall j, j <> i ->
      masses' !! j = masses !! j /\ volumes' !! j = volumes !! j.
Proof.
  intros Hvalid Hl Hk. pose proof (lookup_lt_Some _ _ _ Hl) as Hi.
  destruct (valid_input_lookup _ _ _ _ i Hvalid Hi)
    as (l0 & c & Hl0 & Hc & Hlpos & Hcpos).
  rewrite Hl in Hl0. injection Hl0 as <-.
  assert (Hvalid' : valid_input (<[i:=k * l]> lengths) concentrations
                      ratio n_total)
    by (apply valid_input_insert_length; trivial; nra).
  assert (Hl' : <[i:=k * l]> lengths !! i = Some (k * l))
    by now apply list_lookup_insert_eq.
  do 9 eexists.
  split; [now apply valid_input_returns|].
  split.
  { rewrite (valid_input_returns _ _ _ _ Hvalid'), denominator_insert.
    rewrite (amounts_of_length lengths) by apply length_insert.
    reflexivity. }
  split; [exact (lookup_weights_of _ _ _ _ _ Hl)|].
  split; [exact (lookup_weights_of _ _ _ _ _ Hl')|].
  split; [ring|].
  split; [rewrite (lookup_volumes_of _ _ _ _ _ _ _ Hl Hc);
          now rewrite truediv_Finite by lra|].
  split; [rewrite (lookup_volumes_of _ _ _ _ _ _ _ Hl' Hc);
          now rewrite truediv_Finite by lra|].
  split; [field; lra|].
  intros j Hj. unfold weights_of, volumes_of.
  rewrite !list_lookup_imap, !lookup_zip_with.
  now rewrite !list_lookup_insert_ne by congruence.
Qed.

Lemma scaling_length_scales_mass_witness :
  exists volumes masses amounts volumes' masses' m m' v v',
    calculate_dna_volumes [5; 1] [100; 150] 2 (1 # 2) =
      Ok (volumes, masses, amounts) /\
    calculate_dna_volumes (<[1%nat:=3 * 1]> [5; 1]) [100; 150] 2 (1 # 2) =
      Ok (volumes', masses', amounts) /\
    masses !! 1%nat = Some (Finite m) /\ masses' !! 1%nat = Some (Finite m') /\
    m' == 3 * m /\
    volumes !! 1%nat = Some (Finite v) /\ volumes' !! 1%nat = Some (Finite v') /\
    v' == 3 * v /\
    forall j, j <> 1%nat ->
      masses' !! j = masses !! j /\ volumes' !! j = volumes !! j.
Proof.
  apply (scaling_length_scales_mass [5; 1] [100; 150] 2 (1 # 2) 1 1 3
           valid_example eq_refl).
  reflexivity.
Defined.

(** X2. In exact arithmetic: for valid inputs, multiplying the total
    amount by any factor [k]
    multiplies every amount, mass and volume by [k]: the result is linear
    in the total amount. *)
Theorem scaling_total_scales_results lengths concentrations ratio n_total k :
  valid_input lengths concentrations ratio n_total ->
  exists volumes masses amounts volumes' masses' amounts',
    calculate_dna_volumes lengths concentrations ratio n_total =
      Ok (volumes, masses, amounts) /\
    calculate_dna_volumes lengths concentrations ratio (k * n_total) =
      Ok (volumes', masses', amounts') /\
    forall i, (i < length lengths)%nat ->
      exists a m v a' m' v',
        amounts !! i = Some (Finite a) /\ amounts' !! i = Some (Finite a') /\
        masses !! i = Some (Finite m) /\ masses' !! i = Some (Finite m') /\
        volumes !! i = Some (Finite v) /\ volumes' !! i = Some (Finite v') /\
        a' == k * a /\ m' == k * m /\ v' == k * v.
Proof.
  intros Hvalid. pose proof Hvalid as (HN & Hlen & _ & _ & Hr & _).
  pose proof (denominator_pos lengths ratio HN Hr) as Hd.
  do 6 eexists.
  split; [now apply valid_input_returns|].
  split; [apply calculate_dna_volumes_returns; trivial; lia|].
  intros i Hi.
  destruct (valid_input_lookup _ _ _ _ i Hvalid Hi)
    as (l & c & Hl & Hc & Hlpos & Hcpos).
  do 6 eexists.
  rewrite !lookup_amounts_of by trivial.
  rewrite !(lookup_weights_of _ _ _ _ _ Hl).
  rewrite !(lookup_volumes_of _ _ _ _ _ _ _ Hl Hc).
  rewrite !truediv_Finite by lra.
  do 6 (split; [reflexivity|]).
  set (d := denominator lengths ratio) in *.
  destruct (decide (0 < i)%nat); repeat split; field; lra.
Qed.

Lemma scaling_total_scales_results_witness :
  exists volumes masses amounts volumes' masses' amounts',
    calculate_dna_volumes [5; 1] [100; 150] 2 (1 # 2) =
      Ok (volumes, masses, amounts) /\
    calculate_dna_volumes [5; 1] [100; 150] 2 (3 * (1 # 2)) =
      Ok (volumes', masses', amounts') /\
    forall i, (i < 2)%nat ->
      exists a m v a' m' v',
        amounts !! i = Some (Finite a) /\ amounts' !! i = Some (Finite a') /\
        masses !! i = Some (Finite m) /\ masses' !! i = Some (Finite m') /\
        volumes !! i = Some (Finite v) /\ volumes' !! i = Some (Finite v') /\
        a' == 3 * a /\ m' == 3 * m /\ v' == 3 * v.
Proof.
  exact (scaling_total_scales_results [5; 1] [100; 150] 2 (1 # 2) 3
           valid_example).
Defined.

(** ** Inputs of unequal length, and the two exceptions *)

(** X3. Concentrations beyond the last fragment are never read: with at
    least as many concentrations as lengths, the call behaves as on the
    first [N] concentrations.  This holds for every arithmetic, double
    precision included. *)
Theorem surplus_concentrations_ignored `{Arith F D}
    (lengths concentrations : list F) (ratio n_total : F) :
  (length lengths <= length concentrations)%nat ->
  calculate_dna_volumes lengths concentrations ratio n_total =
  calculate_dna_volumes lengths (take (length lengths) concentrations)
    ratio n_total.
Proof.
  intros Hlen. rewrite !calculate_dna_volumes_eq.
  destruct (float_is_zero (denominator lengths ratio)); [reflexivity|].
  rewrite length_take_le by trivial.
  rewrite !decide_False by lia. cbv zeta.
  unfold volumes_of. now rewrite zip_with_take_r.
Qed.

Lemma surplus_concentrations_ignored_witness :
  calculate_dna_volumes [5; 1] [100; 150; 7; 0] 2 (1 # 2) =
  calculate_dna_volumes [5; 1] (take (length [5; 1]) [100; 150; 7; 0])
    2 (1 # 2).
Proof.
  apply (surplus_concentrations_ignored [5; 1] [100; 150; 7; 0] 2 (1 # 2)).
  simpl. lia.
Defined.

(** X4. In exact arithmetic the call raises [ZeroDivisionError] exactly
    when [ratio * (N - 1) = -1], and [IndexError] exactly when it does not
    and there are fewer concentrations than lengths.  So a single fragment
    never divides by zero at line 18, whatever the ratio, and neither does
    a ratio that is not negative once there is a fragment. *)
Theorem exceptions_characterised (lengths concentrations : list Q)
    (ratio n_total : Q) :
  (calculate_dna_volumes lengths concentrations ratio n_total =
     Raise ZeroDivisionError <->
   ratio * inject_Z (Z.of_nat (length lengths) - 1) == -1) /\
  (calculate_dna_volumes lengths concentrations ratio n_total =
     Raise IndexError <->
   ~ ratio * inject_Z (Z.of_nat (length lengths) - 1) == -1 /\
   (length concentrations < length lengths)%nat) /\
  (length lengths = 1%nat ->
   calculate_dna_volumes lengths concentrations ratio n_total <>
     Raise ZeroDivisionError) /\
  ((1 <= length lengths)%nat -> 0 <= ratio ->
   calculate_dna_volumes lengths concentrations ratio n_total <>
     Raise ZeroDivisionError).
Proof.
  set (x := inject_Z (Z.of_nat (length lengths) - 1)).
  assert (Hd : denominator lengths ratio == 0 <-> ratio * x == -1).
  { change (denominator lengths ratio) with (inject_Z 1 + ratio * x).
    change (inject_Z 1) with 1. split; intros E; lra. }
  assert (Hzero : calculate_dna_volumes lengths concentrations ratio n_total =
            Raise ZeroDivisionError <-> ratio * x == -1).
  { rewrite calculate_dna_volumes_eq, <- Hd.
    change (float_is_zero (denominator lengths ratio))
      with (Qis_zero (denominator lengths ratio)).
    destruct (Qeq_dec (denominator lengths ratio) 0) as [E|E].
    - rewrite Qis_zero_true by trivial. tauto.
    - rewrite Qis_zero_false by trivial.
      split; [|tauto]. now destruct (decide _). }
  split; [exact Hzero|]. split; [|split].
  - rewrite calculate_dna_volumes_eq, <- Hd.
    change (float_is_zero (denominator lengths ratio))
      with (Qis_zero (denominator lengths ratio)).
    destruct (Qeq_dec (denominator lengths ratio) 0) as [E|E].
    + rewrite Qis_zero_true by trivial. split; [discriminate|tauto].
    + rewrite Qis_zero_false by trivial.
      destruct (decide _); split; try tauto; try discriminate.
  - intros HN. rewrite Hzero. unfold x. rewrite HN.
    change (inject_Z (Z.of_nat 1 - 1)) with 0. lra.
  - intros HN Hr. rewrite Hzero.
    assert (0 <= x).
    { unfold x. change 0 with (inject_Z 0). rewrite <- Zle_Qle. lia. }
    nra.
Qed.

(** ** Identities that hold in every arithmetic *)

(** X5. For every arithmetic, double precision included: when the divisor
    of line 18 does not test zero and every fragment has a concentration,
    the call returns three arrays of [N] entries; the backbone amount is
    the quotient of line 18, every insert carries one and the same amount
    [ratio * n_backbone], every mass is the product of line 31 on the
    returned amount, and every volume is the quotient of line 33 on the
    returned mass.  No rounding separates these from the entries. *)
Theorem entries_in_any_arithmetic `{Arith F D}
    (lengths concentrations : list F) (ratio n_total : F) :
  float_is_zero (denominator lengths ratio) = false ->
  (length lengths <= length concentrations)%nat ->
  exists volumes masses amounts,
    calculate_dna_volumes lengths concentrations ratio n_total =
      Ok (volumes, masses, amounts) /\
    length volumes = length lengths /\
    length masses = length lengths /\
    length amounts = length lengths /\
    (forall l, lengths !! 0%nat = Some l ->
       amounts !! 0%nat =
       Some (np_float64 (float_div n_total (denominator lengths ratio)))) /\
    (forall i, (0 < i < length lengths)%nat ->
       amounts !! i =
       Some (np_float64
               (float_mul ratio
                  (float_div n_total (denominator lengths ratio))))) /\
    (forall i a l, amounts !! i = Some a -> lengths !! i = Some l ->
       masses !! i = Some (weight_of a l)) /\
    (forall i m c, masses !! i = Some m -> concentrations !! i = Some c ->
       volumes !! i = Some (np_truediv m c)).
Proof.
  intros Hd Hlen. rewrite calculate_dna_volumes_eq, Hd.
  rewrite decide_False by lia. cbv zeta.
  set (nb := float_div n_total (denominator lengths ratio)).
  assert (Ha : forall i, (i < length lengths)%nat ->
            amounts_of lengths ratio nb !! i = Some (amount_at ratio nb i)).
  { intros i Hi. unfold amounts_of. rewrite list_lookup_imap.
    destruct (lookup_lt_is_Some_2 lengths i Hi) as [l ->]. reflexivity. }
  do 3 eexists. split; [reflexivity|].
  split. { unfold volumes_of. rewrite length_imap, length_zip_with. lia. }
  split; [apply length_imap|]. split; [apply length_imap|].
  split; [|split; [|split]].
  - intros l Hl. rewrite Ha by (eapply lookup_lt_Some; eauto). reflexivity.
  - intros i Hi. rewrite Ha by lia. unfold amount_at.
    now rewrite decide_True by lia.
  - intros i a l Hai Hl.
    rewrite Ha in Hai by (eapply lookup_lt_Some; eauto).
    injection Hai as <-. unfold weights_of.
    now rewrite list_lookup_imap, Hl.
  - intros i m c Hm Hc. unfold weights_of in Hm.
    rewrite list_lookup_imap in Hm.
    destruct (lengths !! i) as [l|] eqn:Hl; [|discriminate].
    injection Hm as <-. unfold volumes_of.
    now rewrite list_lookup_imap, lookup_zip_with, Hl, Hc.
Qed.

Lemma entries_in_any_arithmetic_witness :
  let lengths := [Binary64.of_int 5; Binary64.of_int 1] in
  let concentrations := [Binary64.of_int 100; Binary64.of_int 150] in
  let ratio := Binary64.of_int 2 in
  let n_total := PrimFloat.div (Binary64.of_int 1) (Binary64.of_int 2) in
  exists volumes masses amounts,
    calculate_dna_volumes lengths concentrations ratio n_total =
      Ok (volumes, masses, amounts) /\
    length volumes = length lengths /\
    length masses = length lengths /\
    length amounts = length lengths /\
    (forall l, lengths !! 0%nat = Some l ->
       amounts !! 0%nat =
       Some (np_float64 (float_div n_total (denominator lengths ratio)))) /\
    (forall i, (0 < i < length lengths)%nat ->
       amounts !! i =
       Some (np_float64
               (float_mul ratio
                  (float_div n_total (denominator lengths ratio))))) /\
    (forall i a l, amounts !! i = Some a -> lengths !! i = Some l ->
       masses !! i = Some (weight_of a l)) /\
    (forall i m c, masses !! i = Some m -> concentrations !! i = Some c ->
       volumes !! i = Some (np_truediv m c)).
Proof.
  intros lengths concentrations ratio n_total.
  apply (entries_in_any_arithmetic lengths concentrations ratio n_total).
  - vm_compute. reflexivity.
  - simpl. lia.
Defined.

(** ** How the amounts move with the inputs *)

Lemma quotient_decreasing t d d' : 0 < t -> 0 < d -> d < d' -> t / d' < t / d.
Proof.
  intros Ht Hd Hdd. apply Qlt_shift_div_r; [lra|].
  assert (Hq : t / d * d == t) by (field; lra).
  assert (0 < t / d) by (apply Qlt_shift_div_l; lra).
  nra.
Qed.

Lemma weight_increasing a a' l :
  0 < l -> a' < a ->
  a' * float_pow10 (-12) * 660 * float_pow10 9 * l * float_pow10 3 <
  a * float_pow10 (-12) * 660 * float_pow10 9 * l * float_pow10 3.
Proof. intros Hl Ha. rewrite !weight_value. nra. Qed.

Lemma quotient_increasing m m' c : 0 < c -> m' < m -> m' / c < m / c.
Proof.
  intros Hc Hm. unfold Qdiv. apply Qmult_lt_r; trivial.
  now apply Qinv_lt_0_compat.
Qed.

Lemma valid_input_app lengths concentrations ratio n_total l c :
  valid_input lengths concentrations ratio n_total -> 0 < l -> 0 < c ->
  valid_input (lengths ++ [l]) (concentrations ++ [c]) ratio n_total.
Proof.
  intros (HN & Hlen & Hl & Hc & Hr & Ht) Hlpos Hcpos. unfold valid_input.
  rewrite !length_app. simpl. repeat split; trivial; try lia.
  - apply Forall_app. split; trivial. now constructor.
  - apply Forall_app. split; trivial. now constructor.
Qed.

(** X6. In exact arithmetic: for valid inputs, one more insert (a further
    length and
    concentration at the end of the lists) strictly lowers the amount, the
    mass and the volume of every fragment that was there before. *)
Theorem extra_insert_lowers_results lengths concentrations ratio n_total l c :
  valid_input lengths concentrations ratio n_total -> 0 < l -> 0 < c ->
  exists volumes masses amounts volumes' masses' amounts',
    calculate_dna_volumes lengths concentrations ratio n_total =
      Ok (volumes, masses, amounts) /\
    calculate_dna_volumes (lengths ++ [l]) (concentrations ++ [c])
      ratio n_total = Ok (volumes', masses', amounts') /\
    forall i, (i < length lengths)%nat ->
      exists a m v a' m' v',
        amounts !! i = Some (Finite a) /\ amounts' !! i = Some (Finite a') /\
        masses !! i = Some (Finite m) /\ masses' !! i = Some (Finite m') /\
        volumes !! i = Some (Finite v) /\ volumes' !! i = Some (Finite v') /\
        a' < a /\ m' < m /\ v' < v.
Proof.
  intros Hvalid Hlpos Hcpos.
  pose proof (valid_input_app _ _ _ _ l c Hvalid Hlpos Hcpos) as Hvalid'.
  pose proof Hvalid as (HN & Hlen & _ & _ & Hr & Ht).
  pose proof (denominator_pos lengths ratio HN Hr) as Hd.
  assert (Hd' : denominator (lengths ++ [l]) ratio
                == denominator lengths ratio + ratio).
  { unfold denominator. rewrite length_app. cbn.
    replace (Z.of_nat (length lengths + 1) - 1)%Z
      with ((Z.of_nat (length lengths) - 1) + 1)%Z by lia.
    rewrite inject_Z_plus. change (inject_Z 1) with 1. ring. }
  set (d := denominator lengths ratio) in *.
  set (d' := denominator (lengths ++ [l]) ratio) in *.
  assert (Hnb : n_total / d' < n_total / d)
    by (apply quotient_decreasing; lra).
  assert (Hnb' : 0 < n_total / d') by (apply Qlt_shift_div_l; lra).
  do 6 eexists.
  split; [now apply valid_input_returns|].
  split; [now apply valid_input_returns|].
  intros i Hi.
  destruct (valid_input_lookup _ _ _ _ i Hvalid Hi)
    as (li & ci & Hli & Hci & Hlipos & Hcipos).
  assert (Hli' : (lengths ++ [l]) !! i = Some li)
    by (rewrite lookup_app_l; trivial).
  assert (Hci' : (concentrations ++ [c]) !! i = Some ci)
    by (rewrite lookup_app_l; trivial; lia).
  do 6 eexists.
  rewrite lookup_amounts_of by trivial.
  rewrite lookup_amounts_of by (rewrite length_app; lia).
  rewrite (lookup_weights_of _ _ _ _ _ Hli), (lookup_weights_of _ _ _ _ _ Hli').
  rewrite (lookup_volumes_of _ _ _ _ _ _ _ Hli Hci).
  rewrite (lookup_volumes_of _ _ _ _ _ _ _ Hli' Hci').
  rewrite !truediv_Finite by lra.
  do 6 (split; [reflexivity|]). fold d d'.
  assert (Ha : (if decide (0 < i)%nat then ratio * (n_total / d')
                else n_total / d') <
               (if decide (0 < i)%nat then ratio * (n_total / d)
                else n_total / d))
    by (destruct (decide (0 < i)%nat); nra).
  split; [exact Ha|].
  pose proof (weight_increasing _ _ li Hlipos Ha) as Hm.
  split; [exact Hm|]. now apply quotient_increasing.
Qed.

Lemma extra_insert_lowers_results_witness :
  exists volumes masses amounts volumes' masses' amounts',
    calculate_dna_volumes [5; 1] [100; 150] 2 (1 # 2) =
      Ok (volumes, masses, amounts) /\
    calculate_dna_volumes ([5; 1] ++ [3]) ([100; 150] ++ [80]) 2 (1 # 2) =
      Ok (volumes', masses', amounts') /\
    forall i, (i < 2)%nat ->
      exists a m v a' m' v',
        amounts !! i = Some (Finite a) /\ amounts' !! i = Some (Finite a') /\
        masses !! i = Some (Finite m) /\ masses' !! i = Some (Finite m') /\
        volumes !! i = Some (Finite v) /\ volumes' !! i = Some (Finite v') /\
        a' < a /\ m' < m /\ v' < v.
Proof.
  apply (extra_insert_lowers_results [5; 1] [100; 150] 2 (1 # 2) 3 80
           valid_example); reflexivity.
Defined.

(** X7. In exact arithmetic: for valid inputs with at least one insert, a
    larger ratio strictly
    lowers the backbone amount and strictly raises the amount of every
    insert. *)
Theorem larger_ratio_shifts_amounts
    lengths concentrations ratio ratio' n_total :
  valid_input lengths concentrations ratio n_total ->
  (2 <= length lengths)%nat -> ratio < ratio' ->
  exists volumes masses amounts volumes' masses' amounts' a0 a0',
    calculate_dna_volumes lengths concentrations ratio n_total =
      Ok (volumes, masses, amounts) /\
    calculate_dna_volumes lengths concentrations ratio' n_total =
      Ok (volumes', masses', amounts') /\
    amounts !! 0%nat = Some (Finite a0) /\
    amounts' !! 0%nat = Some (Finite a0') /\
    a0' < a0 /\
    forall i, (0 < i < length lengths)%nat ->
      exists a a',
        amounts !! i = Some (Finite a) /\ amounts' !! i = Some (Finite a') /\
        a < a'.
Proof.
  intros Hvalid HN2 Hrr.
  pose proof Hvalid as (HN & Hlen & _ & _ & Hr & Ht).
  pose proof (denominator_pos lengths ratio HN Hr) as Hd.
  pose proof (denominator_pos lengths ratio' HN ltac:(lra)) as Hd'.
  pose proof (valid_input_returns _ _ _ _ Hvalid) as Hret.
  assert (Hret' := calculate_dna_volumes_returns lengths concentrations
                     ratio' n_total HN ltac:(lia) ltac:(lra)).
  rewrite denominator_inserts in Hd, Hd', Hret, Hret' by trivial.
  assert (Hx : 1 <= num_inserts lengths).
  { unfold num_inserts. change 1 with (inject_Z 1). rewrite <- Zle_Qle. lia. }
  set (x := num_inserts lengths) in *.
  do 6 eexists. exists (n_total / (1 + ratio * x)), (n_total / (1 + ratio' * x)).
  split; [exact Hret|]. split; [exact Hret'|].
  set (nb := n_total / (1 + ratio * x)).
  set (nb' := n_total / (1 + ratio' * x)).
  assert (Hnb : nb * (1 + ratio * x) == n_total) by (unfold nb; field; lra).
  assert (Hnb' : nb' * (1 + ratio' * x) == n_total)
    by (unfold nb'; field; lra).
  assert (Hlt : nb' < nb) by (apply quotient_decreasing; nra).
  split; [now rewrite lookup_amounts_of by lia|].
  split; [now rewrite lookup_amounts_of by lia|].
  split; [exact Hlt|].
  intros i Hi. do 2 eexists.
  rewrite !lookup_amounts_of by lia. rewrite !decide_True by lia.
  do 2 (split; [reflexivity|]).
  assert (Hxlt : x * (ratio * nb) < x * (ratio' * nb')) by lra.
  apply (Qmult_lt_l _ _ x); lra.
Qed.

Lemma larger_ratio_shifts_amounts_witness :
  exists volumes masses amounts volumes' masses' amounts' a0 a0',
    calculate_dna_volumes [5; 1] [100; 150] 2 (1 # 2) =
      Ok (volumes, masses, amounts) /\
    calculate_dna_volumes [5; 1] [100; 150] 3 (1 # 2) =
      Ok (volumes', masses', amounts') /\
    amounts !! 0%nat = Some (Finite a0) /\
    amounts' !! 0%nat = Some (Finite a0') /\
    a0' < a0 /\
    forall i, (0 < i < 2)%nat ->
      exists a a',
        amounts !! i = Some (Finite a) /\ amounts' !! i = Some (Finite a') /\
        a < a'.
Proof.
  apply (larger_ratio_shifts_amounts [5; 1] [100; 150] 2 3 (1 # 2)
           valid_example); [simpl; lia | reflexivity].
Defined.

(** * The page *)

(** ** The lists the page builds *)

Lemma collect_eq {F} (w : Ui.inputs F) :
  Ui.collect w =
  (Ui.bb_length w ::
     map (Ui.insert_length w) (seq 0 (Z.to_nat (Ui.num_inserts w))),
   Ui.bb_concentration w ::
     map (Ui.insert_concentration w) (seq 0 (Z.to_nat (Ui.num_inserts w)))).
Proof.
  unfold Ui.collect. induction (Z.to_nat (Ui.num_inserts w)) as [|k IH].
  - reflexivity.
  - rewrite seq_S, foldl_app, IH, !map_app. reflexivity.
Qed.

Lemma collect_lengths {F} (w : Ui.inputs F) :
  length (Ui.collect w).1 = S (Z.to_nat (Ui.num_inserts w)) /\
  length (Ui.collect w).2 = S (Z.to_nat (Ui.num_inserts w)).
Proof. rewrite collect_eq. simpl. now rewrite !length_map, !length_seq. Qed.

(** ** The display loop *)

Section Display.
Context `{Arith F D}.
Variables (vol weight n : list D).

Let rows := zip n (zip weight vol).
Let block := fun (i : nat) (r : D * (D * D)) =>
  Ui.section (Ui.title i) r.1 r.2.1 r.2.2.
Let body := fun (i : nat) (page : list (Ui.element D)) =>
  ni ← getitem n i; wi ← getitem weight i; vi ← getitem vol i;
  mret (page ++ Ui.section ("DNA Fragment " +:+ pretty i) ni wi vi).

Lemma rows_lookup i :
  (i < length n)%nat -> length weight = length n -> length vol = length n ->
  exists ni wi vi,
    n !! i = Some ni /\ weight !! i = Some wi /\ vol !! i = Some vi /\
    rows !! i = Some (ni, (wi, vi)).
Proof.
  intros Hi Hw Hv.
  destruct (lookup_lt_is_Some_2 n i Hi) as [ni Hni].
  destruct (lookup_lt_is_Some_2 weight i ltac:(lia)) as [wi Hwi].
  destruct (lookup_lt_is_Some_2 vol i ltac:(lia)) as [vi Hvi].
  exists ni, wi, vi. repeat split; trivial.
  unfold rows. now rewrite !lookup_zip_with, Hni, Hwi, Hvi.
Qed.

Lemma show_loop m : forall k,
  (0 < k)%nat -> (k + m <= length n)%nat ->
  length weight = length n -> length vol = length n ->
  for_range body (seq k m) (concat (imap block (take k rows))) =
  Ok (concat (imap block (take (k + m) rows))).
Proof.
  induction m as [|m IH]; intros k Hk Hlen Hw Hv; cbn [seq for_range].
  - now rewrite Nat.add_0_r.
  - destruct (rows_lookup k ltac:(lia) Hw Hv)
      as (ni & wi & vi & Hni & Hwi & Hvi & Hrow).
    assert (Hstep : forall page, body k page =
              Ok (page ++ Ui.section ("DNA Fragment " +:+ pretty k) ni wi vi)).
    { intros page. unfold body.
      now rewrite (getitem_Some _ _ _ Hni), (getitem_Some _ _ _ Hwi),
        (getitem_Some _ _ _ Hvi). }
    rewrite Hstep. cbn [mbind result_bind].
    replace (k + S m)%nat with (S k + m)%nat by lia.
    rewrite <- IH by lia. f_equal.
    rewrite (take_S_r _ _ _ Hrow), imap_app, concat_app. f_equal.
    cbn [imap concat]. rewrite app_nil_r.
    rewrite length_take_le by (apply lookup_lt_Some in Hrow; lia).
    rewrite Nat.add_0_r. unfold block, Ui.title.
    destruct k; [lia|reflexivity].
Qed.

Lemma show_eq (lengths : list F) :
  (1 <= length lengths)%nat -> length n = length lengths ->
  length weight = length lengths -> length vol = length lengths ->
  Ui.show lengths vol weight n = Ok (Ui.page_of vol weight n).
Proof.
  intros HN Hn Hw Hv. unfold Ui.show.
  destruct (rows_lookup 0 ltac:(lia) ltac:(lia) ltac:(lia))
    as (n0 & w0 & v0 & Hn0 & Hw0 & Hv0 & Hrow).
  rewrite (getitem_Some _ _ _ Hn0), (getitem_Some _ _ _ Hw0),
    (getitem_Some _ _ _ Hv0).
  cbn [mbind mret result_bind result_ret].
  assert (Hfirst : Ui.section "Backbone" n0 w0 v0 =
                   concat (imap block (take 1 rows))).
  { rewrite (take_S_r _ 0 _ Hrow). reflexivity. }
  rewrite Hfirst.
  fold body.
  rewrite (show_loop (length lengths - 1) 1) by lia.
  cbn [mbind mret result_bind result_ret].
  replace (1 + (length lengths - 1))%nat with (length lengths) by lia.
  rewrite take_ge; [reflexivity|].
  unfold rows. rewrite !length_zip_with. lia.
Qed.

End Display.

(** ** What the page shows *)

(** The run of the page in closed form: the calculation on the collected
    lists, and on its result one section per fragment and the total. *)
Lemma run_eq `{Arith F D} (w : Ui.inputs F) :
  Ui.run w =
  if Ui.button w then
    if float_is_zero (denominator (Ui.collect w).1 (Ui.ratio w))
    then Raise ZeroDivisionError
    else
      let nb := float_div (Ui.n_total w)
                  (denominator (Ui.collect w).1 (Ui.ratio w)) in
      Ok (Ui.page_of
            (volumes_of (Ui.collect w).1 (Ui.collect w).2 (Ui.ratio w) nb)
            (weights_of (Ui.collect w).1 (Ui.ratio w) nb)
            (amounts_of (Ui.collect w).1 (Ui.ratio w) nb))
  else Ok [].
Proof.
  unfold Ui.run. destruct (Ui.button w); [|reflexivity].
  destruct (collect_lengths w) as [Hl Hc].
  rewrite calculate_dna_volumes_eq.
  destruct (float_is_zero _); [reflexivity|].
  rewrite decide_False by lia. cbv zeta.
  cbn [mbind result_bind fst snd].
  apply show_eq.
  - lia.
  - apply length_imap.
  - apply length_imap.
  - unfold volumes_of. rewrite length_imap, length_zip_with. lia.
Qed.

Lemma length_concat_sections {D} (rows : list (D * (D * D))) :
  forall f : nat -> string,
  length (concat (imap (fun i r => Ui.section (f i) r.1 r.2.1 r.2.2) rows))
  = (4 * length rows)%nat.
Proof.
  induction rows as [|r rows IH]; intros f; [reflexivity|].
  cbn [imap concat]. rewrite length_app.
  change (length (Ui.section (f 0%nat) r.1 r.2.1 r.2.2)) with 4%nat.
  unfold compose. rewrite (IH (fun i => f (S i))). simpl. lia.
Qed.

Lemma length_page_of `{Arith F D} (vol weight n : list D) :
  length weight = length n -> length vol = length n ->
  length (Ui.page_of vol weight n) = (4 * length n + 2)%nat.
Proof.
  intros Hw Hv. unfold Ui.page_of.
  rewrite length_app, length_concat_sections, !length_zip_with. simpl. lia.
Qed.

(** X8. Whatever the widgets return and in every arithmetic, the page
    hands the calculation two lists of the same length, one entry for the
    backbone and one per insert, so a run never ends in [IndexError].  A
    run ends in [ZeroDivisionError] exactly when the button is pressed and
    the divisor of line 18 tests zero; without the button nothing is
    shown; and a page that is shown has four elements per fragment and two
    for the total. *)
Theorem page_never_raises_IndexError `{Arith F D} (w : Ui.inputs F) :
  length (Ui.collect w).1 = S (Z.to_nat (Ui.num_inserts w)) /\
  length (Ui.collect w).2 = length (Ui.collect w).1 /\
  Ui.run w <> Raise IndexError /\
  (Ui.run w = Raise ZeroDivisionError <->
   Ui.button w = true /\
   float_is_zero (denominator (Ui.collect w).1 (Ui.ratio w)) = true) /\
  (Ui.button w = false -> Ui.run w = Ok []) /\
  (forall page, Ui.button w = true -> Ui.run w = Ok page ->
     length page = (4 * length (Ui.collect w).1 + 2)%nat).
Proof.
  destruct (collect_lengths w) as [Hl Hc].
  split; [exact Hl|]. split; [lia|].
  rewrite run_eq.
  destruct (Ui.button w), (float_is_zero _); cbv zeta.
  all: repeat split; try discriminate; try tauto; try (intros [? ?]; discriminate).
  intros page _ Hpage. injection Hpage as <-.
  rewrite length_page_of.
  - unfold amounts_of. now rewrite length_imap.
  - unfold weights_of, amounts_of. now rewrite !length_imap.
  - unfold volumes_of, amounts_of.
    rewrite !length_imap, length_zip_with. lia.
Qed.

Lemma lookup_concat_sections {D} (rows : list (D * (D * D))) :
  forall (f : nat -> string) i r j,
  rows !! i = Some r -> (j < 4)%nat ->
  concat (imap (fun i r => Ui.section (f i) r.1 r.2.1 r.2.2) rows)
    !! (4 * i + j)%nat
  = Ui.section (f i) r.1 r.2.1 r.2.2 !! j.
Proof.
  induction rows as [|r0 rows IH]; intros f i r j Hr Hj; [discriminate|].
  cbn [imap concat]. destruct i as [|i].
  - injection Hr as ->. rewrite lookup_app_l; [reflexivity|].
    simpl. lia.
  - rewrite lookup_app_r by (simpl; lia).
    change (length (Ui.section (f 0%nat) r0.1 r0.2.1 r0.2.2)) with 4%nat.
    replace (4 * S i + j - 4)%nat with (4 * i + j)%nat by lia.
    unfold compose. exact (IH (fun i => f (S i)) i r j Hr Hj).
Qed.

(** X9. When the calculation returns, the page shows fragment [i] in its
    [i]-th section: the subheader [Backbone] or [DNA Fragment i], then the
    amount, the weight and the volume the calculation returned for
    fragment [i]; the last metric is the sum of all returned volumes.  This
    holds in every arithmetic. *)
Theorem page_shows_every_fragment `{Arith F D} (w : Ui.inputs F)
    (vol weight n : list D) :
  Ui.button w = true ->
  calculate_dna_volumes (Ui.collect w).1 (Ui.collect w).2
    (Ui.ratio w) (Ui.n_total w) = Ok (vol, weight, n) ->
  exists page,
    Ui.run w = Ok page /\
    (forall i ni wi vi,
       n !! i = Some ni -> weight !! i = Some wi -> vol !! i = Some vi ->
       page !! (4 * i)%nat = Some (Ui.Subheader (Ui.title i)) /\
       page !! (4 * i + 1)%nat = Some (Ui.Metric "Amount (pmol)" ni) /\
       page !! (4 * i + 2)%nat = Some (Ui.Metric "Weight (ng)" wi) /\
       page !! (4 * i + 3)%nat = Some (Ui.Metric "Volume (µL)" vi)) /\
    last page =
      Some (Ui.Metric "Total DNA solution volume in reaction (µL)"
              (np_sum vol)).
Proof.
  intros Hb Hcalc. rewrite run_eq, Hb.
  rewrite calculate_dna_volumes_eq in Hcalc.
  destruct (float_is_zero _); [discriminate|].
  destruct (decide _); [discriminate|].
  cbv zeta in *. injection Hcalc as <- <- <-.
  eexists. split; [reflexivity|]. split.
  - intros i ni wi vi Hni Hwi Hvi. unfold Ui.page_of.
    set (rows := zip _ _).
    assert (Hrow : rows !! i = Some (ni, (wi, vi)))
      by (unfold rows; now rewrite !lookup_zip_with, Hni, Hwi, Hvi).
    pose proof (lookup_lt_Some _ _ _ Hrow) as Hi.
    pose proof (length_concat_sections rows Ui.title) as Hlen.
    assert (Hget : forall j tail, (j < 4)%nat ->
              (concat (imap (fun i r =>
                               Ui.section (Ui.title i) r.1 r.2.1 r.2.2) rows)
               ++ tail) !! (4 * i + j)%nat =
              Ui.section (Ui.title i) ni wi vi !! j).
    { intros j tail Hj. rewrite lookup_app_l by lia.
      exact (lookup_concat_sections rows Ui.title i _ j Hrow Hj). }
    split; [rewrite <- (Nat.add_0_r (4 * i)); now rewrite Hget by lia|].
    repeat split; now rewrite Hget by lia.
  - unfold Ui.page_of. now rewrite last_app.
Qed.

Lemma page_shows_every_fragment_witness :
  exists page,
    Ui.run default_inputs = Ok page /\
    (forall i ni wi vi,
       amounts_of [5.0; 1.0] 2.0 (0.5 / denominator [5.0; 1.0] 2.0) !! i
         = Some ni ->
       weights_of [5.0; 1.0] 2.0 (0.5 / denominator [5.0; 1.0] 2.0) !! i
         = Some wi ->
       volumes_of [5.0; 1.0] [100.0; 150.0] 2.0
         (0.5 / denominator [5.0; 1.0] 2.0) !! i = Some vi ->
       page !! (4 * i)%nat = Some (Ui.Subheader (Ui.title i)) /\
       page !! (4 * i + 1)%nat = Some (Ui.Metric "Amount (pmol)" ni) /\
       page !! (4 * i + 2)%nat = Some (Ui.Metric "Weight (ng)" wi) /\
       page !! (4 * i + 3)%nat = Some (Ui.Metric "Volume (µL)" vi)) /\
    last page =
      Some (Ui.Metric "Total DNA solution volume in reaction (µL)"
              (np_sum (volumes_of [5.0; 1.0] [100.0; 150.0] 2.0
                         (0.5 / denominator [5.0; 1.0] 2.0)))).
Proof.
  apply (page_shows_every_fragment default_inputs); reflexivity.
Defined.

(** ** The page under the widgets' minimum values *)








(** ** Widget keys *)

(** X11. The keys [length_i] and [conc_i] that lines 67 and 70 give the
    widgets of the inserts are pairwise distinct: two inserts never share a
    key, and no length widget has the key of a concentration widget. *)
Theorem widget_keys_distinct (i j : nat) :
  (Ui.length_key i = Ui.length_key j <-> i = j) /\
  (Ui.conc_key i = Ui.conc_key j <-> i = j) /\
  Ui.length_key i <> Ui.conc_key j.
Proof.
  unfold Ui.length_key, Ui.conc_key. repeat split.
  - intros E. simpl in E. injection E as E. now apply (inj pretty).
  - now intros ->.
  - intros E. simpl in E. injection E as E. now apply (inj pretty).
  - now intros ->.
  - intros E. simpl in E. discriminate E.
Qed.

(** ** A zero concentration and the total volume *)

Lemma add_finite x y : is_finite (Exact.add x y) <-> is_finite x /\ is_finite y.
Proof.
  destruct x as [p|s|], y as [q|t|]; simpl; try tauto.
  destruct (Bool.eqb s t); simpl; tauto.
Qed.

Lemma sum_finite (a : list float64) : forall acc,
  is_finite (foldl Exact.add acc a) <-> is_finite acc /\ Forall is_finite a.
Proof.
  induction a as [|x a IH]; intros acc; cbn [foldl].
  - split; [intros ?; split; [assumption|constructor]|tauto].
  - rewrite IH, add_finite, Forall_cons. tauto.
Qed.

Lemma truediv_finite m c : is_finite (truediv (Finite m) c) <-> ~ c == 0.
Proof.
  simpl. destruct (Qeq_dec c 0) as [E|E].
  - rewrite (Qis_zero_true c E). destruct (Qis_zero m); simpl; tauto.
  - rewrite (Qis_zero_false c E). simpl. tauto.
Qed.

(** X12. In exact arithmetic, for lists of equal length and a divisor of
    line 18 that is not zero, the total volume [np.sum(vol)] that line 93
    computes is a number exactly when no concentration is zero: one zero
    concentration leaves an infinite or NaN total, and nothing else
    does. *)
Theorem total_volume_finite_iff (lengths concentrations : list Q)
    (ratio n_total : Q) :
  ~ denominator lengths ratio == 0 ->
  length concentrations = length lengths ->
  exists volumes masses amounts,
    calculate_dna_volumes lengths concentrations ratio n_total =
      Ok (volumes, masses, amounts) /\
    (is_finite (np_sum volumes) <->
     Forall (fun c => ~ c == 0) concentrations).
Proof.
  intros Hd Hlen. rewrite calculate_dna_volumes_eq.
  change (float_is_zero (denominator lengths ratio))
    with (Qis_zero (denominator lengths ratio)).
  rewrite Qis_zero_false by trivial. rewrite decide_False by lia.
  cbv zeta. do 3 eexists. split; [reflexivity|].
  unfold np_sum. rewrite sum_finite. cbn [np_float64 exact_arith is_finite].
  set (nb := float_div n_total (denominator lengths ratio)).
  rewrite !Forall_lookup. split.
  - intros [_ Hfin] i c Hc.
    destruct (lookup_lt_is_Some_2 lengths i) as [l Hl];
      [apply lookup_lt_Some in Hc; lia|].
    specialize (Hfin i _ (lookup_volumes_of _ _ _ _ _ _ _ Hl Hc)).
    now apply truediv_finite in Hfin.
  - intros Hnz. split; [exact I|]. intros i v Hv.
    unfold volumes_of in Hv. rewrite list_lookup_imap, lookup_zip_with in Hv.
    destruct (lengths !! i) as [l|] eqn:Hl; [|discriminate].
    destruct (concentrations !! i) as [c|] eqn:Hc; [|discriminate].
    injection Hv as <-. apply truediv_finite. exact (Hnz i c Hc).
Qed.

Lemma total_volume_finite_iff_witness :
  exists volumes masses amounts,
    calculate_dna_volumes [5; 1] [100; 0] 2 (1 # 2) =
      Ok (volumes, masses, amounts) /\
    (is_finite (np_sum volumes) <-> Forall (fun c => ~ c == 0) [100; 0]).
Proof.
  apply (total_volume_finite_iff [5; 1] [100; 0] 2 (1 # 2));
    [discriminate | reflexivity].
Defined.

(** * Inputs outside the preconditions, in every arithmetic *)

Lemma lookup_entries `{Arith F D} (lengths concentrations : list F)
    (ratio nb : F) i l c :
  lengths !! i = Some l -> concentrations !! i = Some c ->
  amounts_of lengths ratio nb !! i = Some (amount_at ratio nb i) /\
  weights_of lengths ratio nb !! i =
    Some (weight_of (amount_at ratio nb i) l) /\
  volumes_of lengths concentrations ratio nb !! i =
    Some (np_truediv (weight_of (amount_at ratio nb i) l) c).
Proof.
  intros Hl Hc. unfold amounts_of, weights_of, volumes_of.
  now rewrite !list_lookup_imap, lookup_zip_with, Hl, Hc.
Qed.

(** In double precision a quotient by zero is an infinity or a NaN. *)
Lemma div_zero_not_finite (m c : PrimFloat.float) :
  PrimFloat.eqb c (Binary64.of_int 0) = true ->
  Binary64.is_finite (PrimFloat.div m c) = false.
Proof.
  intros Hc. unfold Binary64.is_finite.
  rewrite FloatAxioms.classify_spec, FloatAxioms.div_spec.
  rewrite FloatAxioms.eqb_spec in Hc.
  change (FloatOps.Prim2SF (Binary64.of_int 0))
    with (SpecFloat.S754_zero false) in Hc.
  destruct (FloatOps.Prim2SF c) as [sc|sc| |sc mc ec];
    try (destruct sc); try discriminate Hc.
  all: destruct (FloatOps.Prim2SF m) as [sm|sm| |sm mm em];
    try (destruct sm); reflexivity.
Qed.

(** C8, as amended.  The function validates nothing and has no
    [InvalidInput] error.  In every arithmetic, double precision included,
    it raises [ZeroDivisionError] exactly when the divisor
    [1 + ratio * (N - 1)] that line 18 computes tests equal to zero, else
    [IndexError] exactly when there are fewer concentrations than lengths,
    and no partial result comes back in either case.  Every other input,
    valid or not, returns [N] amounts, masses and volumes computed by lines
    18, 26, 31 and 33: the backbone amount is [n_total] by the divisor, an
    insert amount [ratio] times that, a mass the product of line 31 on the
    amount, a volume the numpy quotient of the mass by the concentration.
    A concentration of zero leaves an infinite or NaN volume, in exact
    arithmetic and in double precision. *)
Theorem no_input_validation :
  (forall (F D : Type) (A : Arith F D) (lengths concentrations : list F)
          (ratio n_total : F),
     (float_is_zero (denominator lengths ratio) = true ->
      calculate_dna_volumes lengths concentrations ratio n_total =
        Raise ZeroDivisionError) /\
     (float_is_zero (denominator lengths ratio) = false ->
      (length concentrations < length lengths)%nat ->
      calculate_dna_volumes lengths concentrations ratio n_total =
        Raise IndexError) /\
     (float_is_zero (denominator lengths ratio) = false ->
      (length lengths <= length concentrations)%nat ->
      exists volumes masses amounts,
        calculate_dna_volumes lengths concentrations ratio n_total =
          Ok (volumes, masses, amounts) /\
        length volumes = length lengths /\
        length masses = length lengths /\
        length amounts = length lengths /\
        forall i l c,
          lengths !! i = Some l -> concentrations !! i = Some c ->
          exists ai mi,
            amounts !! i = Some ai /\
            ai = np_float64
                   (if decide (0 < i)%nat
                    then float_mul ratio
                           (float_div n_total (denominator lengths ratio))
                    else float_div n_total (denominator lengths ratio)) /\
            masses !! i = Some mi /\
            mi = np_mul (np_mul (np_mul (np_mul (np_mul
                   ai (float_pow10 (-12))) (float_of_int 660))
                   (float_pow10 9)) l) (float_pow10 3) /\
            volumes !! i = Some (np_truediv mi c))) /\
  (forall (lengths concentrations : list Q) (ratio n_total : Q)
          volumes masses amounts i l c,
     calculate_dna_volumes lengths concentrations ratio n_total =
       Ok (volumes, masses, amounts) ->
     lengths !! i = Some l -> concentrations !! i = Some c -> c == 0 ->
     exists v, volumes !! i = Some v /\ ~ is_finite v) /\
  (forall (lengths concentrations : list PrimFloat.float)
          (ratio n_total : PrimFloat.float) volumes masses amounts i l c,
     calculate_dna_volumes lengths concentrations ratio n_total =
       Ok (volumes, masses, amounts) ->
     lengths !! i = Some l -> concentrations !! i = Some c ->
     PrimFloat.eqb c (Binary64.of_int 0) = true ->
     exists v, volumes !! i = Some v /\ Binary64.is_finite v = false).
Proof.
  split; [|split].
  - intros F D A lengths concentrations ratio n_total.
    rewrite calculate_dna_volumes_eq. split; [|split].
    + now intros ->.
    + intros -> Hlen. now rewrite decide_True.
    + intros -> Hlen. rewrite decide_False by lia. cbv zeta.
      do 3 eexists. split; [reflexivity|].
      split. { unfold volumes_of. rewrite length_imap, length_zip_with. lia. }
      split; [apply length_imap|]. split; [apply length_imap|].
      intros i l c Hl Hc.
      destruct (lookup_entries lengths concentrations ratio
                  (float_div n_total (denominator lengths ratio)) i l c Hl Hc)
        as (Ha & Hm & Hv).
      do 2 eexists. split; [exact Ha|]. split; [reflexivity|].
      split; [exact Hm|]. split; [reflexivity|]. exact Hv.
  - intros lengths concentrations ratio n_total volumes masses amounts i l c
      Hcalc Hl Hc Hc0.
    rewrite calculate_dna_volumes_eq in Hcalc.
    destruct (float_is_zero _); [discriminate|].
    destruct (decide _); [discriminate|].
    cbv zeta in Hcalc. injection Hcalc as <- <- <-.
    eexists. split; [exact (lookup_volumes_of _ _ _ _ _ _ _ Hl Hc)|].
    now rewrite truediv_finite.
  - intros lengths concentrations ratio n_total volumes masses amounts i l c
      Hcalc Hl Hc Hc0.
    rewrite calculate_dna_volumes_eq in Hcalc.
    destruct (float_is_zero _); [discriminate|].
    destruct (decide _); [discriminate|].
    cbv zeta in Hcalc. injection Hcalc as <- <- <-.
    eexists.
    split; [exact (proj2 (proj2 (lookup_entries _ _ _ _ i l c Hl Hc)))|].
    now apply div_zero_not_finite.
Qed.

(** * Double precision against the exact identities *)

Module Rounding.

Import PrimFloat.
#[local] Set Warnings "-inexact-float".
#[local] Open Scope float_scope.

(** C2 as the specification states it fails in the doubles the program
    computes with: on the valid inputs lengths [5.0, 1.0], concentrations
    [100.0, 150.0], ratio 2.0, total 0.5 the masses returned are one unit in
    the last place below [amount * 660 * length], which is 550 and 220. *)
Lemma mass_rounds_in_doubles :
  Binary64.valid_input [5; 1] [100; 150] 2 0.5 = true /\
  calculate_dna_volumes [5; 1]%float [100; 150]%float 2%float 0.5%float =
    Ok ([5.4999999999999991; 1.4666666666666666],
        [549.99999999999989; 219.99999999999997],
        [0.16666666666666666; 0.33333333333333331]) /\
  0.16666666666666666 * 660 * 5 = 550 /\
  0.33333333333333331 * 660 * 1 = 220 /\
  eqb 549.99999999999989 550 = false /\
  eqb 219.99999999999997 220 = false.
Proof. repeat split; vm_compute; reflexivity. Qed.




End Rounding.
